(** * DormManagement, backend1: the contract router and the pagination schema

    A shallow embedding of
    - [schemas/helper.py]: the generic pydantic model [PaginatedResponse];
    - [routers/contract.py]: the [APIRouter] for the contract resource, its
      session dependency [get_db] and its five endpoints.

    Python integers are [Z]; keyword arguments and database tables are finite
    maps; code that touches the database or may raise runs in a small
    state-and-exception monad. *)

From Stdlib Require Import ZArith List String Lia.
From stdpp Require Import base option list gmap strings fin_maps.

Local Open Scope Z_scope.
Local Open Scope string_scope.

(** ** schemas/helper.py *)

Module helper.

(** [ceil_div a b] is the mathematical [ceil (a / b)] for a positive [b]. *)
Definition ceil_div (a b : Z) : Z := - ((- a) / b).

Section PaginatedResponse.
(** [T = TypeVar('T')]: the item type is unconstrained. *)
Context {T : Type}.

(** The argument values in view: a Python [int] or a [list] of items, the
    two kinds the annotations name. Values that pydantic converts on the way
    in ([str], [float] and [bool] for an [int] field, a tuple or a set for a
    list field) are not in this universe, and nothing is said about them. *)
Inductive PyVal : Type :=
| VInt (z : Z)
| VList (l : list T).

(** [class PaginatedResponse(BaseModel, Generic[T])]: five annotated fields,
    none with a default, and no validator. *)
Record PaginatedResponse : Type := mkPaginatedResponse {
  items : list T;
  total : Z;
  page : Z;
  size : Z;
  pages : Z
}.

(** What pydantic reports for one field. *)
Inductive FieldError : Type :=
| Missing        (* "field required" *)
| NotAnInteger   (* "value is not a valid integer" *)
| NotAList.      (* "value is not a valid list" *)

(** Validation of a field annotated [int], on the values in view: an [int]
    is taken as it is, a list is refused. *)
Definition validate_int (v : option PyVal) : FieldError + Z :=
  match v with
  | None => inl Missing
  | Some (VInt z) => inr z
  | Some (VList _) => inl NotAnInteger
  end.

(** Validation of a field annotated [List[T]], on the values in view: a
    list is taken as it is, an [int] is refused; the items themselves are not
    checked, [T] being a bare type variable. *)
Definition validate_list (v : option PyVal) : FieldError + list T :=
  match v with
  | None => inl Missing
  | Some (VList l) => inr l
  | Some (VInt _) => inl NotAList
  end.

Definition field_errors {A} (name : string) (r : FieldError + A)
  : list (string * FieldError) :=
  match r with
  | inl e => [(name, e)]
  | inr _ => []
  end.

(** [PaginatedResponse_init kw] is the call of the class with the keyword
    arguments [kw]: every field is validated on its own, in the
    order of declaration; keys that name no field are ignored; the errors of
    all fields are collected in a [ValidationError]. *)
Definition PaginatedResponse_init (kw : gmap string PyVal)
  : list (string * FieldError) + PaginatedResponse :=
  let r_items := validate_list (kw !! "items") in
  let r_total := validate_int (kw !! "total") in
  let r_page := validate_int (kw !! "page") in
  let r_size := validate_int (kw !! "size") in
  let r_pages := validate_int (kw !! "pages") in
  match r_items, r_total, r_page, r_size, r_pages with
  | inr i, inr t, inr p, inr s, inr n =>
      inr {| items := i; total := t; page := p; size := s; pages := n |}
  | _, _, _, _, _ =>
      inl (field_errors "items" r_items ++ field_errors "total" r_total ++
           field_errors "page" r_page ++ field_errors "size" r_size ++
           field_errors "pages" r_pages)%list
  end.

(** [class Config: orm_mode = True] enables [PaginatedResponse.from_orm(obj)],
    which reads the same five names as attributes of [obj] and validates
    them in the same way. *)
Definition from_orm (obj : gmap string PyVal)
  : list (string * FieldError) + PaginatedResponse :=
  PaginatedResponse_init obj.

(** The keyword arguments of a call that names the five fields. *)
Definition kwargs (i : list T) (t p s n : Z) : gmap string PyVal :=
  <["items" := VList i]> (<["total" := VInt t]> (<["page" := VInt p]>
    (<["size" := VInt s]> (<["pages" := VInt n]> ∅)))).

End PaginatedResponse.

Arguments PyVal : clear implicits.
Arguments PaginatedResponse : clear implicits.

(** The names of the declared fields, in the order of the class body. *)
Definition field_names : list string :=
  ["items"; "total"; "page"; "size"; "pages"].

(** Three responses a caller can ask for: a consistent first page of 25
    records by tens, the same with a page count of 7, and a page of size 0
    with one item. *)
Definition first_page : PaginatedResponse Z :=
  mkPaginatedResponse [] 25 1 10 3.

Definition seven_pages : PaginatedResponse Z :=
  mkPaginatedResponse [] 25 1 10 7.

Definition crowded_page : PaginatedResponse Z :=
  mkPaginatedResponse [42] 1 1 0 1.

End helper.

(** ** Effects: state and exceptions *)

Module py.

(** The exceptions that travel through the router. *)
Inductive exn : Type :=
| NotFound
| ValidationError
| IntegrityError
| RequestValidationError
| HTTPException (status : Z)
| RuntimeError (msg : string).

(** How a call ends: with a value, or with a raised exception. *)
Inductive outcome (A : Type) : Type :=
| Return (a : A)
| Raise (e : exn).
Arguments Return {A} a.
Arguments Raise {A} e.

(** A computation over the world [W]. *)
Definition Eff (W A : Type) : Type := W -> W * outcome A.

Section Eff.
Context {W : Type}.

Definition ret {A} (a : A) : Eff W A := fun w => (w, Return a).

Definition raise {A} (e : exn) : Eff W A := fun w => (w, Raise e).

Definition bind {A B} (m : Eff W A) (k : A -> Eff W B) : Eff W B :=
  fun w =>
    match m w with
    | (w', Return a) => k a w'
    | (w', Raise e) => (w', Raise e)
    end.

(** [try: body finally: final]. The final block runs on both exits of the
    body; the outcome of the body stands unless the final block raises. *)
Definition try_finally {A} (body : Eff W A) (final : Eff W unit) : Eff W A :=
  fun w =>
    let '(w1, r) := body w in
    match final w1 with
    | (w2, Return _) => (w2, r)
    | (w2, Raise e) => (w2, Raise e)
    end.

(** [try: m except BaseException as e: ...], with the outcome handed to the
    caller as a value. *)
Definition attempt {A} (m : Eff W A) : Eff W (outcome A) :=
  fun w => let '(w1, r) := m w in (w1, Return r).

(** The outcome of [f <$> m] from the outcome of [m]. *)
Definition outcome_map {A B} (f : A -> B) (r : outcome A) : outcome B :=
  match r with
  | Return a => Return (f a)
  | Raise e => Raise e
  end.

(** Resuming a suspended [yield]: [next] makes it return, [throw e] makes it
    raise [e]. *)
Definition resume (sent : option exn) : Eff W unit :=
  match sent with
  | None => ret tt
  | Some e => raise e
  end.
End Eff.

#[global] Instance Eff_ret {W} : MRet (Eff W) := fun A => @ret W A.
#[global] Instance Eff_bind {W} : MBind (Eff W) := fun A B k m => bind m k.
#[global] Instance Eff_fmap {W} : FMap (Eff W) :=
  fun A B f m => bind m (fun a => ret (f a)).

End py.

(** ** database.py and the ORM session *)

Module database.
Import py.

(** A session is a handle into the table of sessions of the process. *)
Definition Session : Type := nat.

Inductive SessionState : Type := Open | Closed.

(** The world a request runs in: the sessions created so far and the
    persistent store [D]. *)
Record World (D : Type) : Type := mkWorld {
  sessions : gmap nat SessionState;
  store : D
}.
Arguments mkWorld {D} _ _.
Arguments sessions {D} _.
Arguments store {D} _.

Section Sessions.
Context {D : Type}.

(** The handle of the next session, and the world once it is opened. *)
Definition new_session (w : World D) : Session := fresh (dom (sessions w)).

Definition opened (w : World D) : World D :=
  mkWorld (<[new_session w := Open]> (sessions w)) (store w).

Definition released (db : Session) (w : World D) : World D :=
  mkWorld (<[db := Closed]> (sessions w)) (store w).

(** Modelled from the spec: the session factory [SessionLocal] of
    [database.py], which is not in view. A call yields a new scoped database
    handle, open, and leaves the store alone. *)
Definition SessionLocal : Eff (World D) Session :=
  fun w => (opened w, Return (new_session w)).

(** [db.close()]: releases the session; closing twice is harmless. *)
Definition close (db : Session) : Eff (World D) unit :=
  fun w => (released db w, Return tt).

Definition is_open (db : Session) (w : World D) : Prop :=
  sessions w !! db = Some Open.

Definition is_closed (db : Session) (w : World D) : Prop :=
  sessions w !! db = Some Closed.
End Sessions.

End database.

(** ** crud/contract.py, as the router sees it *)

Module crud_contract.
Import py database.

(** The five functions the router imports as [crud_contract]. [D] is the
    store, [ContractCreate] and [ContractOut] the schemas of
    [schemas/contract.py]. A function may change the whole world and may
    raise. *)
Class Ops (D ContractCreate ContractOut : Type) : Type := {
  create_contract : Session -> ContractCreate -> Eff (World D) ContractOut;
  get_contract_by_id : Session -> Z -> Eff (World D) ContractOut;
  update_contract : Session -> Z -> ContractCreate -> Eff (World D) ContractOut;
  delete_contract : Session -> Z -> Eff (World D) ContractOut;
  get_contracts : Session -> Eff (World D) (list ContractOut)
}.

End crud_contract.

(** ** routers/contract.py *)

Module contract.
Import py database.

Inductive Method : Type := GET | POST | PUT | DELETE.

#[global] Instance Method_eq_dec : EqDecision Method.
Proof. solve_decision. Defined.

(** The values of [response_model=] in this file. *)
Inductive ResponseModel : Type :=
| ContractOut_model         (* ContractOut *)
| List_ContractOut_model.   (* List[ContractOut] *)

(** The five decorated functions, as entries of the route table. *)
Inductive Endpoint : Type :=
| Ep_create_contract
| Ep_get_contract_by_id
| Ep_update_contract
| Ep_delete_contract
| Ep_read_contracts.

(** The annotations and defaults found in the signatures of the endpoints. *)
Inductive Annotation : Type := Ann_int | Ann_ContractCreate | Ann_Session.
Inductive Default : Type := NoDefault | Depends_get_db.

Record Param : Type := mkParam {
  param_name : string;
  annotation : Annotation;
  default : Default
}.

(** The parameter lists of the five [def]s. *)
Definition signature (f : Endpoint) : list Param :=
  match f with
  | Ep_create_contract =>
      [mkParam "contract" Ann_ContractCreate NoDefault;
       mkParam "db" Ann_Session Depends_get_db]
  | Ep_get_contract_by_id =>
      [mkParam "contract_id" Ann_int NoDefault;
       mkParam "db" Ann_Session Depends_get_db]
  | Ep_update_contract =>
      [mkParam "contract_id" Ann_int NoDefault;
       mkParam "contract" Ann_ContractCreate NoDefault;
       mkParam "db" Ann_Session Depends_get_db]
  | Ep_delete_contract =>
      [mkParam "contract_id" Ann_int NoDefault;
       mkParam "db" Ann_Session Depends_get_db]
  | Ep_read_contracts =>
      [mkParam "db" Ann_Session Depends_get_db]
  end.

Record Route : Type := mkRoute {
  route_method : Method;
  route_path : string;
  response_model : ResponseModel;
  endpoint : Endpoint
}.

Record APIRouter : Type := mkAPIRouter {
  prefix : string;
  tags : list string;
  routes : list Route
}.

(** [APIRouter(prefix=..., tags=...)]: a router with no route yet. *)
Definition APIRouter_new (prefix : string) (tags : list string) : APIRouter :=
  mkAPIRouter prefix tags [].

(** [@r.post(path, response_model=rm)] and its siblings applied to [f]: the
    route is appended, its path being the prefix of the router followed by
    [path]. *)
Definition api_route (m : Method) (path : string) (rm : ResponseModel)
    (f : Endpoint) (r : APIRouter) : APIRouter :=
  mkAPIRouter (prefix r) (tags r)
    (routes r ++ [mkRoute m (prefix r ++ path) rm f])%list.

(** The module body, top to bottom. *)
Definition router : APIRouter :=
  let r := APIRouter_new "/contracts" ["contracts"] in
  let r := api_route POST "/" ContractOut_model Ep_create_contract r in
  let r := api_route GET "/{contract_id}" ContractOut_model Ep_get_contract_by_id r in
  let r := api_route PUT "/{contract_id}" ContractOut_model Ep_update_contract r in
  let r := api_route DELETE "/{contract_id}" ContractOut_model Ep_delete_contract r in
  let r := api_route GET "/" List_ContractOut_model Ep_read_contracts r in
  r.

(** Where the framework takes the value of a parameter from. *)
Inductive ParamSource : Type :=
| FromPath (a : Annotation)
| FromQuery (a : Annotation)
| FromBody (a : Annotation)
| FromDependency.

(** Is [{name}] a placeholder of the path? *)
Definition in_path (path name : string) : bool :=
  match String.index 0 ("{" ++ name ++ "}") path with
  | Some _ => true
  | None => false
  end.

(** A parameter with [Depends] is a dependency; a parameter named in the path
    is a path parameter; otherwise a pydantic model is the body and a scalar
    is a query parameter. *)
Definition param_source (path : string) (p : Param) : ParamSource :=
  match default p with
  | Depends_get_db => FromDependency
  | NoDefault =>
      if in_path path (param_name p) then FromPath (annotation p)
      else match annotation p with
           | Ann_ContractCreate => FromBody Ann_ContractCreate
           | a => FromQuery a
           end
  end.

(** What a client has to send for a route: the sources of the parameters that
    are not dependencies. *)
Definition is_dependency (s : ParamSource) : bool :=
  match s with
  | FromDependency => true
  | _ => false
  end.

Definition request_params (r : Route) : list ParamSource :=
  List.filter (fun s => negb (is_dependency s))
    (map (param_source (route_path r)) (signature (endpoint r))).

(** *** The session dependency *)

Section Dependency.
Context {D : Type}.

(** The generator object made by a call of [get_db]: not started yet,
    suspended at the [yield] inside the [try] with the local [db], or
    finished. *)
Inductive get_db_gen : Type :=
| Created
| Suspended (db : Session)
| Finished.

(** Running [get_db] from its suspension point with [sent] ([None] for
    [next], [Some e] for [throw e]) until it yields or returns. The result
    is the new state of the generator and the yielded value, if any; no
    value means [StopIteration].
    - from the start: [db = SessionLocal()], then [yield db];
    - from the [yield]: the [try] body ends as [sent] says, the [finally]
      block closes [db], and the function returns or the exception goes on;
    - a finished generator stops at once, or raises what is thrown in. *)
Definition get_db (g : get_db_gen) (sent : option exn)
  : Eff (World D) (get_db_gen * option Session) :=
  match g with
  | Created =>
      match sent with
      | None => db ← SessionLocal; mret (Suspended db, Some db)
      | Some e => raise e
      end
  | Suspended db =>
      try_finally (resume sent) (close db);; mret (Finished, None)
  | Finished =>
      resume sent;; mret (Finished, None)
  end.

(** [Depends(get_db)], as the framework runs a dependency with [yield]: the
    generator is started, the endpoint is called with the yielded value,
    and the generator is resumed, with the exception of the endpoint thrown
    in if there is one. *)
Definition Depends {A} (endpoint : Session -> Eff (World D) A)
  : Eff (World D) A :=
  '(g, y) ← get_db Created None;
  match y with
  | None => raise (RuntimeError "generator didn't yield")
  | Some db =>
      r ← attempt (endpoint db);
      match r with
      | Return v =>
          '(_, y') ← get_db g None;
          match y' with
          | None => mret v
          | Some _ => raise (RuntimeError "generator didn't stop")
          end
      | Raise e =>
          get_db g (Some e);;
          raise (RuntimeError "generator didn't stop after throw()")
      end
  end.
End Dependency.

(** *** The endpoints *)

Section Endpoints.
Context {D ContractCreate ContractOut : Type}.
Context `{!crud_contract.Ops D ContractCreate ContractOut}.

Definition create_contract (contract : ContractCreate) (db : Session)
  : Eff (World D) ContractOut :=
  crud_contract.create_contract db contract.

Definition get_contract_by_id (contract_id : Z) (db : Session)
  : Eff (World D) ContractOut :=
  crud_contract.get_contract_by_id db contract_id.

Definition update_contract (contract_id : Z) (contract : ContractCreate)
    (db : Session) : Eff (World D) ContractOut :=
  crud_contract.update_contract db contract_id contract.

Definition delete_contract (contract_id : Z) (db : Session)
  : Eff (World D) ContractOut :=
  crud_contract.delete_contract db contract_id.

Definition read_contracts (db : Session)
  : Eff (World D) (list ContractOut) :=
  crud_contract.get_contracts db.

(** A request once the framework has matched its path and parsed it: the
    method, the path of the route it matched (the template, not the URL),
    the converted path parameters and the parsed body. Matching a URL
    against the templates, redirects and the parsing of the body are not
    modelled. *)
Record Request : Type := mkRequest {
  method : Method;
  path : string;
  path_params : gmap string Z;
  body : option ContractCreate
}.

(** What an endpoint hands back: one record or a list of records, as its
    [response_model] says. *)
Inductive Response : Type :=
| One (c : ContractOut)
| Many (l : list ContractOut).

(** Calling an endpoint with the arguments taken from the request; an
    argument that is missing is a request validation error. *)
Definition call (f : Endpoint) (rq : Request) (db : Session)
  : Eff (World D) Response :=
  match f with
  | Ep_create_contract =>
      match body rq with
      | Some contract => One <$> create_contract contract db
      | None => raise RequestValidationError
      end
  | Ep_get_contract_by_id =>
      match path_params rq !! "contract_id" with
      | Some contract_id => One <$> get_contract_by_id contract_id db
      | None => raise RequestValidationError
      end
  | Ep_update_contract =>
      match path_params rq !! "contract_id", body rq with
      | Some contract_id, Some contract =>
          One <$> update_contract contract_id contract db
      | _, _ => raise RequestValidationError
      end
  | Ep_delete_contract =>
      match path_params rq !! "contract_id" with
      | Some contract_id => One <$> delete_contract contract_id db
      | None => raise RequestValidationError
      end
  | Ep_read_contracts => Many <$> read_contracts db
  end.

Definition serves (rq : Request) (r : Route) : bool :=
  bool_decide (route_method r = method rq) && String.eqb (route_path r) (path rq).

Definition find_route (rq : Request) : option Route :=
  List.find (serves rq) (routes router).

(** One request, from the route table to the value of the endpoint: the
    session dependency is set up around the call of the endpoint. The value
    is not passed through the [response_model] of the route: the answer is
    what the endpoint returned or raised. *)
Definition handle (rq : Request) : Eff (World D) Response :=
  match find_route rq with
  | Some r => Depends (call (endpoint r) rq)
  | None =>
      if existsb (fun r => String.eqb (route_path r) (path rq)) (routes router)
      then raise (HTTPException 405)
      else raise (HTTPException 404)
  end.

(** The five requests of the interface. *)
Definition POST_contracts (contract : ContractCreate) : Request :=
  mkRequest POST "/contracts/" ∅ (Some contract).
Definition GET_contract (contract_id : Z) : Request :=
  mkRequest GET "/contracts/{contract_id}" {["contract_id" := contract_id]} None.
Definition PUT_contract (contract_id : Z) (contract : ContractCreate) : Request :=
  mkRequest PUT "/contracts/{contract_id}" {["contract_id" := contract_id]}
    (Some contract).
Definition DELETE_contract (contract_id : Z) : Request :=
  mkRequest DELETE "/contracts/{contract_id}" {["contract_id" := contract_id]} None.
Definition GET_contracts : Request :=
  mkRequest GET "/contracts/" ∅ None.
End Endpoints.

Arguments Request : clear implicits.
Arguments Response : clear implicits.

End contract.

(** ** The data-access layer and the contract schemas, from the specification *)

Module crud_model.
Import py database.

Section Model.
(** The fields of a contract other than its identity are opaque;
    [valid] tells the payloads the data-access layer accepts. *)
Context {Fields : Type} (valid : Fields -> bool).

(** Modelled from the spec: the schema [ContractOut] of
    [schemas/contract.py], not in view: a contract is identified by an
    integer id, its other fields are those of the creation payload
    [ContractCreate], here [Fields]. *)
Record ContractOut : Type := mkContractOut {
  id : Z;
  fields : Fields
}.

(** The contract table: the database is the sole owner of record state, and
    a record is identified by its id. *)
Abbreviation Table := (gmap Z Fields).

Definition max_id (t : Table) : Z :=
  map_fold (fun i _ acc => Z.max i acc) 0 t.

(** The generated id of the next record: 1 in an empty table. *)
Definition next_id (t : Table) : Z := max_id t + 1.

Definition with_store (w : World Table) (t : Table) : World Table :=
  mkWorld (sessions w) t.

(** Modelled from the spec: [create_contract] of [crud/contract.py], not in
    view: a valid payload is persisted under a generated id and the new
    record is returned; an invalid one is a validation failure. *)
Definition create_contract (db : Session) (contract : Fields)
  : Eff (World Table) ContractOut :=
  fun w =>
    if valid contract then
      let i := next_id (store w) in
      (with_store w (<[i := contract]> (store w)),
       Return (mkContractOut i contract))
    else (w, Raise ValidationError).

(** Modelled from the spec: [get_contract_by_id] of [crud/contract.py], not
    in view: the record with this id, or a not-found failure. *)
Definition get_contract_by_id (db : Session) (contract_id : Z)
  : Eff (World Table) ContractOut :=
  fun w =>
    match store w !! contract_id with
    | Some c => (w, Return (mkContractOut contract_id c))
    | None => (w, Raise NotFound)
    end.

(** Modelled from the spec: [update_contract] of [crud/contract.py], not in
    view: full replace of the fields of an existing record by a valid
    payload, the id staying; the updated record is returned. *)
Definition update_contract (db : Session) (contract_id : Z) (contract : Fields)
  : Eff (World Table) ContractOut :=
  fun w =>
    if valid contract then
      match store w !! contract_id with
      | Some _ =>
          (with_store w (<[contract_id := contract]> (store w)),
           Return (mkContractOut contract_id contract))
      | None => (w, Raise NotFound)
      end
    else (w, Raise ValidationError).

(** Modelled from the spec: [delete_contract] of [crud/contract.py], not in
    view: the record is destroyed and a snapshot of it is returned; a
    missing id is a not-found failure. *)
Definition delete_contract (db : Session) (contract_id : Z)
  : Eff (World Table) ContractOut :=
  fun w =>
    match store w !! contract_id with
    | Some c =>
        (with_store w (delete contract_id (store w)),
         Return (mkContractOut contract_id c))
    | None => (w, Raise NotFound)
    end.

(** Modelled from the spec: [get_contracts] of [crud/contract.py], not in
    view: all the persisted records, unpaginated. *)
Definition get_contracts (db : Session)
  : Eff (World Table) (list ContractOut) :=
  fun w =>
    (w, Return ((fun ic => mkContractOut ic.1 ic.2) <$> map_to_list (store w))).

Definition model_ops : crud_contract.Ops Table Fields ContractOut := {|
  crud_contract.create_contract := create_contract;
  crud_contract.get_contract_by_id := get_contract_by_id;
  crud_contract.update_contract := update_contract;
  crud_contract.delete_contract := delete_contract;
  crud_contract.get_contracts := get_contracts
|}.

(** The application: the router of [routers/contract.py] over this
    data-access layer. *)
Definition serve (rq : contract.Request Fields)
  : Eff (World Table) (contract.Response ContractOut) :=
  contract.handle (H := model_ops) rq.
End Model.

Arguments ContractOut : clear implicits.

(** A concrete contract schema: the only field is the name of the contract,
    which must not be empty. *)
Definition name_valid (name : string) : bool :=
  negb (String.eqb name "").

(** A database with no contract, and one with a single contract. *)
Definition empty_world : World (gmap Z string) := mkWorld ∅ ∅.

Definition acme_world : World (gmap Z string) :=
  mkWorld ∅ {[ 1 := "Acme MSA" ]}.

End crud_model.

(** * Properties *)

(** ** The route table *)

Section RouterFacts.
Import py database contract.
Context {D ContractCreate ContractOut : Type}.
Context `{!crud_contract.Ops D ContractCreate ContractOut}.

Lemma fmap_run {A B} (f : A -> B) (m : Eff (World D) A) (w : World D) :
  (f <$> m) w = ((m w).1, outcome_map f (m w).2).
Proof.
  unfold fmap, Eff_fmap, bind, ret.
  destruct (m w) as [w' [a|e]]; reflexivity.
Qed.

(** The dependency brackets the endpoint: a session is opened, the endpoint
    runs with it, the session is closed, and the outcome of the endpoint is
    the outcome of the whole. *)
Lemma Depends_run {A} (f : Session -> Eff (World D) A) (w : World D) :
  Depends f w =
    (released (new_session w) (f (new_session w) (opened w)).1,
     (f (new_session w) (opened w)).2).
Proof.
  unfold Depends, get_db, mbind, Eff_bind, mret, Eff_ret, bind, ret,
    SessionLocal, attempt, try_finally, resume, close, raise.
  destruct (f (new_session w) (opened w)) as [w2 [v|e]]; reflexivity.
Qed.

Lemma handle_found (rq : Request ContractCreate) (r : Route) (w : World D) :
  find_route rq = Some r ->
  handle rq w =
    (released (new_session w) (call (endpoint r) rq (new_session w) (opened w)).1,
     (call (endpoint r) rq (new_session w) (opened w)).2).
Proof.
  intros Hr. unfold handle. rewrite Hr. apply Depends_run.
Qed.

Lemma new_session_fresh (w : World D) : sessions w !! new_session w = None.
Proof.
  apply not_elem_of_dom. unfold new_session. apply is_fresh.
Qed.

(** The five requests of the interface reach their endpoints. *)
Lemma find_route_POST (c : ContractCreate) :
  find_route (POST_contracts c)
  = Some (mkRoute POST "/contracts/" ContractOut_model Ep_create_contract).
Proof. reflexivity. Qed.

Lemma find_route_GET_one i :
  find_route (GET_contract i : Request ContractCreate)
  = Some (mkRoute GET "/contracts/{contract_id}" ContractOut_model
            Ep_get_contract_by_id).
Proof. reflexivity. Qed.

Lemma find_route_PUT i (c : ContractCreate) :
  find_route (PUT_contract i c)
  = Some (mkRoute PUT "/contracts/{contract_id}" ContractOut_model
            Ep_update_contract).
Proof. reflexivity. Qed.

Lemma find_route_DELETE i :
  find_route (DELETE_contract i : Request ContractCreate)
  = Some (mkRoute DELETE "/contracts/{contract_id}" ContractOut_model
            Ep_delete_contract).
Proof. reflexivity. Qed.

Lemma find_route_GET_all :
  find_route (GET_contracts : Request ContractCreate)
  = Some (mkRoute GET "/contracts/" List_ContractOut_model Ep_read_contracts).
Proof. reflexivity. Qed.

Lemma path_param_lookup (i : Z) :
  ({["contract_id" := i]} : gmap string Z) !! "contract_id" = Some i.
Proof. apply lookup_singleton_eq. Qed.

(** C1. The router has the prefix [/contracts] and declares exactly five
    operations, in this order: POST [/contracts/] with a [ContractCreate]
    body, GET [/contracts/{contract_id}] with an integer path parameter,
    PUT [/contracts/{contract_id}] with the integer path parameter and a
    [ContractCreate] body, DELETE [/contracts/{contract_id}] with the
    integer path parameter, all four answering a [ContractOut], and GET
    [/contracts/] without parameters answering a list of [ContractOut];
    each endpoint, called with the arguments of its request, is the call
    of the data-access function of the same role. *)
Theorem C1_router_declares_five_operations :
  prefix router = "/contracts" /\
  length (routes router) = 5%nat /\
  map (fun r => (route_method r, route_path r, request_params r,
                 response_model r, endpoint r)) (routes router)
  = [ (POST, "/contracts/", [FromBody Ann_ContractCreate],
       ContractOut_model, Ep_create_contract);
      (GET, "/contracts/{contract_id}", [FromPath Ann_int],
       ContractOut_model, Ep_get_contract_by_id);
      (PUT, "/contracts/{contract_id}",
       [FromPath Ann_int; FromBody Ann_ContractCreate],
       ContractOut_model, Ep_update_contract);
      (DELETE, "/contracts/{contract_id}", [FromPath Ann_int],
       ContractOut_model, Ep_delete_contract);
      (GET, "/contracts/", [], List_ContractOut_model, Ep_read_contracts) ] /\
  (forall (c : ContractCreate) db,
      call Ep_create_contract (POST_contracts c) db
      = One <$> crud_contract.create_contract db c) /\
  (forall i db,
      call Ep_get_contract_by_id (GET_contract i) db
      = One <$> crud_contract.get_contract_by_id db i) /\
  (forall i (c : ContractCreate) db,
      call Ep_update_contract (PUT_contract i c) db
      = One <$> crud_contract.update_contract db i c) /\
  (forall i db,
      call Ep_delete_contract (DELETE_contract i) db
      = One <$> crud_contract.delete_contract db i) /\
  (forall db,
      call Ep_read_contracts GET_contracts db
      = Many <$> crud_contract.get_contracts db).
Proof.
  split; [reflexivity|]. split; [reflexivity|]. split; [reflexivity|].
  repeat split; intros; unfold call; simpl;
    rewrite ?path_param_lookup; reflexivity.
Qed.

(** C2. Whatever the data-access layer does, a request to one of the five
    endpoints opens a new session before the endpoint runs and closes that
    session after it, whether the endpoint returned or raised: in the world
    the request ends in, the session is closed. *)
Theorem C2_session_released_on_every_exit
    (rq : Request ContractCreate) (r : Route) (w w' : World D)
    (out : outcome (Response ContractOut)) :
  find_route rq = Some r ->
  handle rq w = (w', out) ->
  exists db w1 w2,
    SessionLocal w = (w1, Return db) /\
    sessions w !! db = None /\
    is_open db w1 /\
    call (endpoint r) rq db w1 = (w2, out) /\
    close db w2 = (w', Return tt) /\
    is_closed db w'.
Proof.
  intros Hr Hrun. rewrite (handle_found _ _ _ Hr) in Hrun.
  injection Hrun as Hw Hout.
  exists (new_session w), (opened w),
    (call (endpoint r) rq (new_session w) (opened w)).1.
  split; [reflexivity|].
  split; [apply new_session_fresh|].
  split; [apply lookup_insert_eq|].
  split; [rewrite <- Hout; apply surjective_pairing|].
  split; [unfold close; by rewrite Hw|].
  rewrite <- Hw. apply lookup_insert_eq.
Qed.

(** C3. Each of the five handlers is the call of its data-access function
    on the session and the arguments it is given: same world afterwards,
    same value returned, same exception raised. Called as the framework
    calls it, with [db] injected by [Depends(get_db)], a handler still ends
    as its data-access function ends on the new session: the value returned
    is the value of that call and an exception raised is the very exception
    of that call, the [finally] block of [get_db] replacing neither; the
    world is as that call left it, but for the session, closed. *)
Theorem C3_handlers_pass_through :
  (forall (c : ContractCreate) db w,
      create_contract c db w = crud_contract.create_contract db c w) /\
  (forall i db w,
      get_contract_by_id i db w = crud_contract.get_contract_by_id db i w) /\
  (forall i (c : ContractCreate) db w,
      update_contract i c db w = crud_contract.update_contract db i c w) /\
  (forall i db w,
      delete_contract i db w = crud_contract.delete_contract db i w) /\
  (forall db w, read_contracts db w = crud_contract.get_contracts db w) /\
  (forall (c : ContractCreate) w,
      Depends (create_contract c) w
      = (released (new_session w)
           (crud_contract.create_contract (new_session w) c (opened w)).1,
         (crud_contract.create_contract (new_session w) c (opened w)).2)) /\
  (forall i w,
      Depends (get_contract_by_id i) w
      = (released (new_session w)
           (crud_contract.get_contract_by_id (new_session w) i (opened w)).1,
         (crud_contract.get_contract_by_id (new_session w) i (opened w)).2)) /\
  (forall i (c : ContractCreate) w,
      Depends (update_contract i c) w
      = (released (new_session w)
           (crud_contract.update_contract (new_session w) i c (opened w)).1,
         (crud_contract.update_contract (new_session w) i c (opened w)).2)) /\
  (forall i w,
      Depends (delete_contract i) w
      = (released (new_session w)
           (crud_contract.delete_contract (new_session w) i (opened w)).1,
         (crud_contract.delete_contract (new_session w) i (opened w)).2)) /\
  (forall w,
      Depends read_contracts w
      = (released (new_session w)
           (crud_contract.get_contracts (new_session w) (opened w)).1,
         (crud_contract.get_contracts (new_session w) (opened w)).2)).
Proof.
  repeat split; try reflexivity; intros; apply Depends_run.
Qed.

End RouterFacts.

(** ** The router over the data-access layer *)

Section CrudFacts.
Import py database contract crud_model.
Context {Fields : Type} (valid : Fields -> bool).

Lemma max_id_upper (t : gmap Z Fields) (i : Z) (c : Fields) :
  t !! i = Some c -> i <= max_id t.
Proof.
  unfold max_id. revert i c.
  apply (map_fold_weak_ind
           (fun r (m : gmap Z Fields) => forall i c, m !! i = Some c -> i <= r)).
  - intros i c Hi. by rewrite lookup_empty in Hi.
  - intros j x m r Hj IH i c Hi.
    destruct (decide (j = i)) as [->|Hne].
    + lia.
    + rewrite lookup_insert_ne in Hi by done.
      specialize (IH i c Hi). lia.
Qed.

(** A generated id names no record yet. *)
Lemma next_id_fresh (t : gmap Z Fields) : t !! next_id t = None.
Proof.
  destruct (t !! next_id t) as [c|] eqn:E; [|done].
  apply max_id_upper in E. unfold next_id in E. lia.
Qed.

(** A request to a route, in terms of its endpoint. *)
Lemma serve_found rq r (w : World (gmap Z Fields)) :
  find_route rq = Some r ->
  serve valid rq w =
    (released (new_session w)
       (call (H := model_ops valid) (endpoint r) rq (new_session w) (opened w)).1,
     (call (H := model_ops valid) (endpoint r) rq (new_session w) (opened w)).2).
Proof. apply handle_found. Qed.

Lemma serve_POST c (w : World (gmap Z Fields)) :
  valid c = true ->
  serve valid (POST_contracts c) w
  = (released (new_session w)
       (with_store (opened w) (<[next_id (store w) := c]> (store w))),
     Return (One (mkContractOut (next_id (store w)) c))).
Proof.
  intros Hv. rewrite (serve_found _ _ _ (find_route_POST c)). simpl.
  rewrite fmap_run. unfold create_contract. simpl.
  unfold crud_model.create_contract. by rewrite Hv.
Qed.

Lemma serve_GET_one i (w : World (gmap Z Fields)) :
  serve valid (GET_contract i) w
  = (released (new_session w) (opened w),
     match store w !! i with
     | Some c => Return (One (mkContractOut i c))
     | None => Raise NotFound
     end).
Proof.
  rewrite (serve_found _ _ _ (find_route_GET_one i)). simpl.
  rewrite path_param_lookup, fmap_run. unfold get_contract_by_id. simpl.
  unfold crud_model.get_contract_by_id. simpl.
  by destruct (store w !! i).
Qed.

Lemma serve_PUT i c (w : World (gmap Z Fields)) :
  valid c = true ->
  is_Some (store w !! i) ->
  serve valid (PUT_contract i c) w
  = (released (new_session w)
       (with_store (opened w) (<[i := c]> (store w))),
     Return (One (mkContractOut i c))).
Proof.
  intros Hv [old Hold]. rewrite (serve_found _ _ _ (find_route_PUT i c)).
  simpl. rewrite path_param_lookup, fmap_run. unfold update_contract. simpl.
  unfold crud_model.update_contract. simpl. by rewrite Hv, Hold.
Qed.

Lemma serve_DELETE i c (w : World (gmap Z Fields)) :
  store w !! i = Some c ->
  serve valid (DELETE_contract i) w
  = (released (new_session w)
       (with_store (opened w) (delete i (store w))),
     Return (One (mkContractOut i c))).
Proof.
  intros Hc. rewrite (serve_found _ _ _ (find_route_DELETE i)).
  simpl. rewrite path_param_lookup, fmap_run. unfold delete_contract. simpl.
  unfold crud_model.delete_contract. simpl. by rewrite Hc.
Qed.

Lemma serve_GET_all (w : World (gmap Z Fields)) :
  serve valid GET_contracts w
  = (released (new_session w) (opened w),
     Return (Many ((fun ic => mkContractOut ic.1 ic.2)
                     <$> map_to_list (store w)))).
Proof.
  rewrite (serve_found _ _ _ find_route_GET_all).
  unfold endpoint, call. by rewrite fmap_run.
Qed.

(** C6. After a POST of a valid payload, which answers a record with a
    generated id and the fields of the payload, a GET of that id answers
    the same record. *)
Theorem C6_create_then_read (c : Fields) (w : World (gmap Z Fields)) :
  valid c = true ->
  exists out w1 w2,
    serve valid (POST_contracts c) w = (w1, Return (One out)) /\
    fields out = c /\
    store w !! id out = None /\
    serve valid (GET_contract (id out)) w1 = (w2, Return (One out)).
Proof.
  intros Hv. eexists _, _, _.
  split; [by apply serve_POST|].
  split; [reflexivity|].
  split; [apply next_id_fresh|].
  rewrite serve_GET_one. simpl. by rewrite lookup_insert_eq.
Qed.

(** C7. A DELETE of the id of a persisted contract answers that record, and
    a GET of the same id afterwards fails, not found. *)
Theorem C7_delete_then_read (i : Z) (c : Fields) (w : World (gmap Z Fields)) :
  store w !! i = Some c ->
  exists w1 w2,
    serve valid (DELETE_contract i) w
    = (w1, Return (One (mkContractOut i c))) /\
    serve valid (GET_contract i) w1 = (w2, Raise NotFound).
Proof.
  intros Hc. eexists _, _.
  split; [by apply serve_DELETE|].
  rewrite serve_GET_one. simpl. by rewrite lookup_delete_eq.
Qed.

(** C8. GET [/contracts/] answers the list the data-access layer returns,
    as it is: it has as many entries as there are persisted records, and
    its entries are exactly the persisted records. *)
Theorem C8_list_is_whole_table (w : World (gmap Z Fields)) :
  exists l w1,
    serve valid GET_contracts w = (w1, Return (Many l)) /\
    (crud_model.get_contracts (new_session w) (opened w)).2 = Return l /\
    length l = size (store w) /\
    (forall i c, mkContractOut i c ∈ l <-> store w !! i = Some c) /\
    store w1 = store w.
Proof.
  eexists _, _. split; [apply serve_GET_all|].
  split; [reflexivity|].
  split; [by rewrite length_fmap, length_map_to_list|].
  split; [|reflexivity].
  intros i c. rewrite list_elem_of_fmap. split.
  - intros [[j x] [Heq Hin]]. simpl in Heq. injection Heq as -> ->.
    by apply elem_of_map_to_list.
  - intros Hc. exists (i, c). split; [reflexivity|].
    by apply elem_of_map_to_list.
Qed.

(** C9. A PUT of a valid payload to the id of a persisted contract answers
    the record with that id and the fields of the payload; afterwards the
    record under that id has the fields of the payload, every other record
    is as it was, and the ids in the table are the same. *)
Theorem C9_update_replaces_fields
    (i : Z) (old c : Fields) (w : World (gmap Z Fields)) :
  store w !! i = Some old ->
  valid c = true ->
  exists w1,
    serve valid (PUT_contract i c) w
    = (w1, Return (One (mkContractOut i c))) /\
    store w1 !! i = Some c /\
    (forall j, j <> i -> store w1 !! j = store w !! j) /\
    dom (store w1) = dom (store w).
Proof.
  intros Hold Hv. eexists.
  split; [by apply serve_PUT|]. simpl.
  split; [apply lookup_insert_eq|].
  split; [intros j Hj; by apply lookup_insert_ne|].
  apply dom_insert_lookup_L. by exists old.
Qed.

End CrudFacts.

(** ** The pagination schema *)

Section PaginationFacts.
Import helper.
Context {T : Type}.

(** [ceil_div a b] is the least [q] with [a <= q * b]. *)
Lemma ceil_div_bounds (a b : Z) :
  0 < b -> (ceil_div a b - 1) * b < a <= ceil_div a b * b.
Proof.
  intros Hb. unfold ceil_div.
  pose proof (Z.div_mod (- a) b ltac:(lia)) as Hdm.
  pose proof (Z.mod_pos_bound (- a) b Hb) as Hm.
  nia.
Qed.

(** A call that names the five fields succeeds and stores the arguments. *)
Lemma init_kwargs (i : list T) (t p s n : Z) :
  PaginatedResponse_init (kwargs i t p s n)
  = inr (mkPaginatedResponse i t p s n).
Proof. reflexivity. Qed.

(** [ceil_div t s] is the one [n] with [(n - 1) * s < t <= n * s]. *)
Lemma ceil_div_unique (t s n : Z) :
  0 < s -> (n = ceil_div t s <-> (n - 1) * s < t <= n * s).
Proof.
  intros Hs. pose proof (ceil_div_bounds t s Hs) as Hb. split.
  - by intros ->.
  - intros Hn. nia.
Qed.

(** C4, as the code has it. The schema neither computes nor checks
    [pages]. A response constructed from integers, with [size > 0], has
    [pages = ceil (total / size)] exactly when the integers passed satisfy
    [(pages - 1) * size < total <= pages * size]; with [total = 25] and
    [size = 10], exactly when the [pages] passed is 3. *)
Theorem C4_pages_as_supplied (i : list T) (t p s n : Z) :
  0 < s ->
  exists r,
    PaginatedResponse_init (kwargs i t p s n) = inr r /\
    total r = t /\ size r = s /\ pages r = n /\
    (pages r = ceil_div (total r) (size r) <-> (n - 1) * s < t <= n * s) /\
    (t = 25 -> s = 10 ->
     (pages r = ceil_div (total r) (size r) <-> n = 3)).
Proof.
  intros Hs. exists (mkPaginatedResponse i t p s n).
  split; [apply init_kwargs|]. simpl.
  split; [reflexivity|]. split; [reflexivity|]. split; [reflexivity|].
  split; [by apply ceil_div_unique|].
  intros -> ->. rewrite (ceil_div_unique 25 10 n) by lia. lia.
Qed.

(** C5, as the code has it. The schema does not relate [items] and
    [size]. A response constructed from a list and integers has that list
    and that size, so it has [len(items) <= size] exactly when the list
    passed has at most [size] elements; any list with an element and a size
    of 0 or less gives a response with more items than its size. *)
Theorem C5_items_and_size_as_supplied (i : list T) (t p s n : Z) :
  exists r,
    PaginatedResponse_init (kwargs i t p s n) = inr r /\
    items r = i /\ size r = s /\
    (Z.of_nat (length (items r)) <= size r <-> Z.of_nat (length i) <= s) /\
    (i <> [] -> s <= 0 -> ~ Z.of_nat (length (items r)) <= size r).
Proof.
  exists (mkPaginatedResponse i t p s n).
  split; [apply init_kwargs|]. simpl.
  split; [reflexivity|]. split; [reflexivity|]. split; [reflexivity|].
  intros Hi Hs Hle. destruct i as [|x i]; [by apply Hi|].
  simpl in Hle. lia.
Qed.

(** C10. Construction checks no relation between the fields: a call that
    names the five fields with well-typed values succeeds and stores every
    value as given; so it does with size 0 and an item, with a page count
    that is not [ceil (total / size)], and with zero and negative
    [page], [size] and [total]. *)
Theorem C10_no_cross_field_validation :
  (forall (i : list T) (t p s n : Z),
      PaginatedResponse_init (kwargs i t p s n)
      = inr (mkPaginatedResponse i t p s n)) /\
  (PaginatedResponse_init (kwargs [42] 1 1 0 1) = inr crowded_page /\
   size crowded_page = 0 /\ items crowded_page <> []) /\
  (PaginatedResponse_init (kwargs [] 25 1 10 7) = inr seven_pages /\
   pages seven_pages <> ceil_div (total seven_pages) (size seven_pages)) /\
  (PaginatedResponse_init (kwargs ([] : list Z) (-5) 0 (-1) 0)
   = inr (mkPaginatedResponse [] (-5) 0 (-1) 0)).
Proof.
  split; [apply init_kwargs|].
  split; [by repeat split|].
  split; [by split|].
  reflexivity.
Qed.

End PaginationFacts.

(** C4 fails as stated: the response built with [total = 25], [size = 10]
    and [pages = 7] exists, and its [pages] is neither
    [ceil (total / size)] nor 3. *)
Lemma C4_counterexample :
  helper.PaginatedResponse_init (helper.kwargs [] 25 1 10 7)
  = inr helper.seven_pages /\
  0 < helper.size helper.seven_pages /\
  helper.total helper.seven_pages = 25 /\
  helper.size helper.seven_pages = 10 /\
  ~ helper.pages helper.seven_pages
    = helper.ceil_div (helper.total helper.seven_pages)
        (helper.size helper.seven_pages) /\
  ~ helper.pages helper.seven_pages = 3.
Proof. by repeat split. Qed.

Lemma C4_witness :
  0 < 10 /\
  exists r,
    helper.PaginatedResponse_init (helper.kwargs [11; 12; 13] 25 1 10 3)
    = inr r /\
    helper.total r = 25 /\ helper.size r = 10 /\ helper.pages r = 3 /\
    (helper.pages r = helper.ceil_div (helper.total r) (helper.size r) <->
     (3 - 1) * 10 < 25 <= 3 * 10) /\
    (25 = 25 -> 10 = 10 ->
     (helper.pages r = helper.ceil_div (helper.total r) (helper.size r) <->
      3 = 3)).
Proof.
  split; [reflexivity|].
  apply (C4_pages_as_supplied [11; 12; 13] 25 1 10 3). reflexivity.
Defined.

(** C5 fails as stated: the response built with [size = 0] and one item
    exists, and it has more items than its size. *)
Lemma C5_counterexample :
  helper.PaginatedResponse_init (helper.kwargs [42] 1 1 0 1)
  = inr helper.crowded_page /\
  ~ Z.of_nat (length (helper.items helper.crowded_page))
    <= helper.size helper.crowded_page.
Proof. split; [reflexivity|]. simpl. lia. Qed.

Lemma C5_witness :
  exists r,
    helper.PaginatedResponse_init (helper.kwargs [11; 12; 13] 25 1 2 13)
    = inr r /\
    helper.items r = [11; 12; 13] /\ helper.size r = 2 /\
    (Z.of_nat (length (helper.items r)) <= helper.size r <->
     Z.of_nat (length [11; 12; 13]) <= 2) /\
    ([11; 12; 13] <> [] -> 2 <= 0 ->
     ~ Z.of_nat (length (helper.items r)) <= helper.size r).
Proof.
  apply (C5_items_and_size_as_supplied [11; 12; 13] 25 1 2 13).
Defined.

(** ** The properties at work on small databases *)

Section Examples.
Import py database contract crud_model.

(** The first contract of an empty database gets the id 1, and reading it
    back gives the same record. *)
Example create_acme :
  (serve name_valid (POST_contracts "Acme MSA") empty_world).2
  = Return (One (mkContractOut 1 "Acme MSA")) /\
  (serve name_valid (GET_contract 1)
     (serve name_valid (POST_contracts "Acme MSA") empty_world).1).2
  = Return (One (mkContractOut 1 "Acme MSA")).
Proof. split; reflexivity. Qed.

(** A payload the data-access layer rejects: the failure comes back as it
    was raised, and the session of the request is closed all the same. *)
Example create_rejected :
  serve name_valid (POST_contracts "") empty_world
  = (released 0%nat empty_world, Raise ValidationError).
Proof. reflexivity. Qed.

Lemma C2_witness :
  find_route (GET_contract 1 : Request string)
  = Some (mkRoute GET "/contracts/{contract_id}" ContractOut_model
            Ep_get_contract_by_id) /\
  exists db w1 w2,
    SessionLocal empty_world = (w1, Return db) /\
    sessions empty_world !! db = None /\
    is_open db w1 /\
    call (H := model_ops name_valid) Ep_get_contract_by_id (GET_contract 1) db w1
    = (w2, Raise NotFound) /\
    close db w2 = (released 0%nat empty_world, Return tt) /\
    is_closed db (released 0%nat empty_world).
Proof.
  split; [reflexivity|].
  apply (C2_session_released_on_every_exit (H := model_ops name_valid)
           (GET_contract 1)
           (mkRoute GET "/contracts/{contract_id}" ContractOut_model
              Ep_get_contract_by_id)
           empty_world (released 0%nat empty_world) (Raise NotFound));
    reflexivity.
Defined.

Lemma C6_witness :
  name_valid "Acme MSA" = true /\
  exists out w1 w2,
    serve name_valid (POST_contracts "Acme MSA") empty_world
    = (w1, Return (One out)) /\
    fields out = "Acme MSA" /\
    store empty_world !! id out = None /\
    serve name_valid (GET_contract (id out)) w1 = (w2, Return (One out)).
Proof.
  split; [reflexivity|].
  apply (C6_create_then_read name_valid "Acme MSA" empty_world).
  reflexivity.
Defined.

Lemma C7_witness :
  store acme_world !! 1 = Some "Acme MSA" /\
  exists w1 w2,
    serve name_valid (DELETE_contract 1) acme_world
    = (w1, Return (One (mkContractOut 1 "Acme MSA"))) /\
    serve name_valid (GET_contract 1) w1 = (w2, Raise NotFound).
Proof.
  split; [reflexivity|].
  apply (C7_delete_then_read name_valid 1 "Acme MSA" acme_world).
  reflexivity.
Defined.

Lemma C9_witness :
  store acme_world !! 1 = Some "Acme MSA" /\
  name_valid "Acme MSA 2" = true /\
  exists w1,
    serve name_valid (PUT_contract 1 "Acme MSA 2") acme_world
    = (w1, Return (One (mkContractOut 1 "Acme MSA 2"))) /\
    store w1 !! 1 = Some "Acme MSA 2" /\
    (forall j, j <> 1 -> store w1 !! j = store acme_world !! j) /\
    dom (store w1) = dom (store acme_world).
Proof.
  split; [reflexivity|]. split; [reflexivity|].
  apply (C9_update_replaces_fields name_valid 1 "Acme MSA" "Acme MSA 2"
           acme_world); reflexivity.
Defined.
End Examples.

(** ** More on the session dependency *)

Section GeneratorFacts.
Import py database contract.
Context {D : Type}.

(** X1. [get_db] yields at one place only: a generator yields a session
    only when it is started with [next]; that session is new and open, the
    generator is then suspended on it, and neither the store nor any other
    session has changed. *)
Theorem X1_get_db_yields_only_at_start
    (g g' : get_db_gen) (sent : option exn) (w w' : World D) (db : Session) :
  get_db g sent w = (w', Return (g', Some db)) ->
  g = Created /\ sent = None /\ g' = Suspended db /\
  sessions w !! db = None /\ is_open db w' /\
  store w' = store w /\
  (forall s, s <> db -> sessions w' !! s = sessions w !! s).
Proof.
  intros Hrun.
  destruct g as [|db0|]; destruct sent as [e|]; try discriminate Hrun.
  injection Hrun as <- <- <-.
  repeat split.
  - apply not_elem_of_dom. apply is_fresh.
  - apply lookup_insert_eq.
  - intros s Hs. simpl. by apply lookup_insert_ne.
Qed.

(** X2. Resuming the generator suspended on [db] runs the [finally] block
    whichever way it is resumed: [db] is closed and the store is as it was;
    after [next] the generator stops without a second yield, after [throw e]
    the exception that comes out is [e] itself. A finished generator changes
    nothing when resumed again. *)
Theorem X2_get_db_resumed_closes_and_stops
    (db : Session) (w : World D) :
  get_db (Suspended db) None w = (released db w, Return (Finished, None)) /\
  (forall e, get_db (Suspended db) (Some e) w = (released db w, Raise e)) /\
  is_closed db (released db w) /\
  store (released db w) = store w /\
  get_db Finished None w = (w, Return (Finished, None)) /\
  (forall e, get_db Finished (Some e) w = (w, Raise e)).
Proof.
  repeat split; try reflexivity. apply lookup_insert_eq.
Qed.

(** X3. Around any endpoint, the dependency adds nothing but the session:
    the outcome is the outcome of the endpoint (no error of the generator
    protocol comes out), the store is as the endpoint left it, the session
    handed to the endpoint ends closed, and every other session is as the
    endpoint left it. *)
Theorem X3_Depends_adds_only_the_session
    {A : Type} (f : Session -> Eff (World D) A) (w : World D) :
  (Depends f w).2 = (f (new_session w) (opened w)).2 /\
  store (Depends f w).1 = store (f (new_session w) (opened w)).1 /\
  is_closed (new_session w) (Depends f w).1 /\
  (forall s, s <> new_session w ->
     sessions (Depends f w).1 !! s
     = sessions (f (new_session w) (opened w)).1 !! s).
Proof.
  rewrite Depends_run. simpl. repeat split.
  - apply lookup_insert_eq.
  - intros s Hs. by apply lookup_insert_ne.
Qed.

End GeneratorFacts.

Lemma X1_witness :
  contract.get_db contract.Created None crud_model.empty_world
  = (database.opened crud_model.empty_world,
     py.Return (contract.Suspended 0%nat, Some 0%nat)) /\
  (contract.Created = contract.Created /\ (None : option py.exn) = None /\
   contract.Suspended 0%nat = contract.Suspended 0%nat /\
   database.sessions crud_model.empty_world !! 0%nat = None /\
   database.is_open 0%nat (database.opened crud_model.empty_world) /\
   database.store (database.opened crud_model.empty_world)
   = database.store crud_model.empty_world /\
   (forall s, s <> 0%nat ->
      database.sessions (database.opened crud_model.empty_world) !! s
      = database.sessions crud_model.empty_world !! s)).
Proof.
  split; [reflexivity|].
  apply (X1_get_db_yields_only_at_start contract.Created (contract.Suspended 0%nat)
           None crud_model.empty_world (database.opened crud_model.empty_world)
           0%nat).
  reflexivity.
Defined.

(** ** More on routing *)

Section RoutingFacts.
Import py database contract.
Context {D ContractCreate ContractOut : Type}.
Context `{!crud_contract.Ops D ContractCreate ContractOut}.

Lemma find_route_in (rq : Request ContractCreate) (r : Route) :
  find_route rq = Some r -> In r (routes router) /\ serves rq r = true.
Proof. unfold find_route. apply find_some. Qed.

(** X4. A request served by a route leaves its session closed in the table,
    so the request that comes next gets another session, and opening that
    one does not reopen the first. *)
Theorem X4_next_request_gets_another_session
    (rq : Request ContractCreate) (r : Route) (w : World D) :
  find_route rq = Some r ->
  new_session (handle rq w).1 <> new_session w /\
  is_closed (new_session w) (opened (handle rq w).1).
Proof.
  intros Hr. rewrite (handle_found _ _ _ Hr). simpl.
  set (w2 := (call (endpoint r) rq (new_session w) (opened w)).1).
  assert (Hne : new_session (released (new_session w) w2) <> new_session w).
  { intros Heq.
    pose proof (new_session_fresh (released (new_session w) w2)) as Hfresh.
    rewrite Heq in Hfresh. simpl in Hfresh.
    by rewrite lookup_insert_eq in Hfresh. }
  split; [exact Hne|].
  unfold is_closed, opened. simpl.
  rewrite lookup_insert_ne by exact Hne. apply lookup_insert_eq.
Qed.

End RoutingFacts.

(** ** More on the pagination schema *)

Section SchemaFacts.
Import helper.
Context {T : Type}.

Lemma field_errors_elem {A} (name f : string) (r : FieldError + A) (e : FieldError) :
  (f, e) ∈ field_errors name r <-> f = name /\ r = inl e.
Proof.
  destruct r as [e'|a]; simpl.
  - rewrite list_elem_of_singleton. split.
    + intros Heq. injection Heq as -> ->. by split.
    + intros [-> Heq]. by injection Heq as ->.
  - split.
    + intros Hin. by apply not_elem_of_nil in Hin.
    + intros [_ Heq]. discriminate Heq.
Qed.

(** A failed construction reports the errors of the five fields, one after
    the other. *)
Lemma init_inl_errors (kw : gmap string (PyVal T)) errs :
  PaginatedResponse_init kw = inl errs ->
  errs = (field_errors "items" (validate_list (kw !! "items")) ++
          field_errors "total" (validate_int (kw !! "total")) ++
          field_errors "page" (validate_int (kw !! "page")) ++
          field_errors "size" (validate_int (kw !! "size")) ++
          field_errors "pages" (validate_int (kw !! "pages")))%list.
Proof.
  unfold PaginatedResponse_init.
  destruct (validate_list (kw !! "items"));
    destruct (validate_int (kw !! "total"));
    destruct (validate_int (kw !! "page"));
    destruct (validate_int (kw !! "size"));
    destruct (validate_int (kw !! "pages"));
    intros Heq; try discriminate Heq; by injection Heq as <-.
Qed.

(** The names in an error list of one field: that field, or none. *)
Lemma field_errors_names {A} (name : string) (r : FieldError + A) :
  sublist ((field_errors name r).*1) [name].
Proof.
  destruct r; simpl; [reflexivity|apply sublist_nil_l].
Qed.

(** X9. A failed construction reports every bad field, not only the first:
    the error list is not empty, it names declared fields only, in the order
    of declaration, and it holds an error for a field exactly when the
    validation of that field fails with it. *)
Theorem X9_init_reports_every_bad_field
    (kw : gmap string (PyVal T)) (errs : list (string * FieldError)) :
  PaginatedResponse_init kw = inl errs ->
  errs <> [] /\
  sublist (errs.*1) field_names /\
  (forall e, ("items", e) ∈ errs <-> validate_list (kw !! "items") = inl e) /\
  (forall f e, f ∈ ["total"; "page"; "size"; "pages"] ->
     ((f, e) ∈ errs <-> validate_int (kw !! f) = inl e)).
Proof.
  intros Hinit. pose proof (init_inl_errors kw errs Hinit) as Herrs.
  split; [|split; [|split]].
  - intros ->. unfold PaginatedResponse_init in Hinit.
    destruct (validate_list (kw !! "items"));
      destruct (validate_int (kw !! "total"));
      destruct (validate_int (kw !! "page"));
      destruct (validate_int (kw !! "size"));
      destruct (validate_int (kw !! "pages")); discriminate.
  - rewrite Herrs. rewrite !fmap_app.
    change field_names
      with (["items"] ++ ["total"] ++ ["page"] ++ ["size"] ++ ["pages"])%list.
    repeat apply sublist_app; apply field_errors_names.
  - intros e. rewrite Herrs. rewrite !elem_of_app, !field_errors_elem.
    split; [|tauto]. intros [H|[H|[H|[H|H]]]]; destruct H as [H1 H2];
      try discriminate H1. exact H2.
  - intros f e Hf. rewrite Herrs. rewrite !elem_of_app, !field_errors_elem.
    repeat (apply elem_of_cons in Hf as [->|Hf]);
      [| | | |by apply not_elem_of_nil in Hf];
      (split; [intros [H|[H|[H|[H|H]]]]; destruct H as [H1 H2];
                 try discriminate H1; exact H2 | tauto]).
Qed.

(** X10. A keyword that names no declared field is ignored: giving it or
    leaving it out makes no difference to the result. *)
Theorem X10_unknown_keyword_ignored
    (kw : gmap string (PyVal T)) (k : string) (v : PyVal T) :
  k ∉ field_names ->
  PaginatedResponse_init (<[k := v]> kw) = PaginatedResponse_init kw /\
  PaginatedResponse_init (delete k kw) = PaginatedResponse_init kw.
Proof.
  intros Hk. unfold field_names in Hk.
  rewrite !not_elem_of_cons in Hk.
  destruct Hk as (H1 & H2 & H3 & H4 & H5 & _).
  unfold PaginatedResponse_init.
  rewrite !lookup_insert_ne, !lookup_delete_ne by done. done.
Qed.

End SchemaFacts.

Section RequestParts.
Import py database contract.
Context {D ContractCreate ContractOut : Type}.
Context `{!crud_contract.Ops D ContractCreate ContractOut}.

(** X11. A request counts only through its method, its path and the
    parameters that the signature of its endpoint declares: two requests
    with the same method and path that agree on the body, where the route
    takes a body, and on [contract_id], where the route takes the path
    parameter, are handled alike. *)
Theorem X11_only_declared_parameters_count
    (rq rq' : Request ContractCreate) (r : Route) (w : World D) :
  find_route rq = Some r ->
  method rq' = method rq ->
  path rq' = path rq ->
  (In (FromBody Ann_ContractCreate) (request_params r) -> body rq' = body rq) ->
  (In (FromPath Ann_int) (request_params r) ->
   path_params rq' !! "contract_id" = path_params rq !! "contract_id") ->
  handle rq' w = handle rq w.
Proof.
  intros Hr Hm Hp Hb Hi.
  assert (Hr' : find_route rq' = Some r).
  { rewrite <- Hr. unfold find_route, serves. by rewrite Hm, Hp. }
  rewrite (handle_found _ _ _ Hr), (handle_found _ _ _ Hr').
  apply find_route_in in Hr as [Hin _]. simpl in Hin.
  destruct Hin as [<-|[<-|[<-|[<-|[<-|[]]]]]]; simpl in *;
    rewrite ?Hb, ?Hi by tauto; reflexivity.
Qed.

End RequestParts.

(** ** The further properties at work *)

Section MoreExamples.
Import py database contract crud_model.

Lemma X4_witness :
  find_route (GET_contract 1 : Request string)
  = Some (mkRoute GET "/contracts/{contract_id}" ContractOut_model
            Ep_get_contract_by_id) /\
  new_session (serve name_valid (GET_contract 1) empty_world).1
  <> new_session empty_world /\
  is_closed (new_session empty_world)
    (opened (serve name_valid (GET_contract 1) empty_world).1).
Proof.
  split; [reflexivity|].
  apply (X4_next_request_gets_another_session (H := model_ops name_valid)
           (GET_contract 1)
           (mkRoute GET "/contracts/{contract_id}" ContractOut_model
              Ep_get_contract_by_id)
           empty_world).
  reflexivity.
Defined.

Lemma X9_witness :
  helper.PaginatedResponse_init
    (<["total" := helper.VList [1]]> ∅ : gmap string (helper.PyVal Z))
  = inl [("items", helper.Missing); ("total", helper.NotAnInteger);
         ("page", helper.Missing); ("size", helper.Missing);
         ("pages", helper.Missing)] /\
  forall e,
    ("total", e) ∈ [("items", helper.Missing); ("total", helper.NotAnInteger);
                    ("page", helper.Missing); ("size", helper.Missing);
                    ("pages", helper.Missing)] <->
    helper.validate_int
      ((<["total" := helper.VList [1]]> ∅ : gmap string (helper.PyVal Z))
         !! "total")
    = inl e.
Proof.
  split; [reflexivity|].
  intros e.
  apply (X9_init_reports_every_bad_field (T := Z)
           (<["total" := helper.VList [1]]> ∅)
           [("items", helper.Missing); ("total", helper.NotAnInteger);
            ("page", helper.Missing); ("size", helper.Missing);
            ("pages", helper.Missing)]).
  - reflexivity.
  - apply list_elem_of_here.
Defined.

Lemma X10_witness :
  helper.PaginatedResponse_init
    (<["cursor" := helper.VInt 0]> (helper.kwargs [] 25 1 10 3))
  = helper.PaginatedResponse_init (helper.kwargs ([] : list Z) 25 1 10 3) /\
  helper.PaginatedResponse_init
    (delete "cursor" (helper.kwargs ([] : list Z) 25 1 10 3))
  = helper.PaginatedResponse_init (helper.kwargs ([] : list Z) 25 1 10 3).
Proof.
  apply (X10_unknown_keyword_ignored (helper.kwargs [] 25 1 10 3) "cursor"
           (helper.VInt 0)).
  unfold helper.field_names. rewrite !not_elem_of_cons.
  repeat split; try discriminate. apply not_elem_of_nil.
Defined.

Lemma X11_witness :
  serve name_valid
    (mkRequest GET "/contracts/" {["contract_id" := 7]} (Some "ignored"))
    acme_world
  = serve name_valid GET_contracts acme_world.
Proof.
  apply (X11_only_declared_parameters_count (H := model_ops name_valid)
           GET_contracts
           (mkRequest GET "/contracts/" {["contract_id" := 7]} (Some "ignored"))
           (mkRoute GET "/contracts/" List_ContractOut_model Ep_read_contracts)
           acme_world).
  - reflexivity.
  - reflexivity.
  - reflexivity.
  - simpl. intros [].
  - simpl. intros [].
Defined.

End MoreExamples.
